(** * Response cache and daily-totals analytics of focus-forge-backend

    A shallow embedding of [src/middleware/cache.ts], of the read routes in
    [src/routes/trackerRoutes.ts] and of the read controllers in
    [src/controllers/trackerController.ts].  The tracker service
    ([services/trackerService]) is not part of the sources; its period
    resolver and daily aggregator are modelled from the spec. *)

From Stdlib Require Import String Ascii List ZArith Bool Lia Permutation.
Import ListNotations.
Open Scope string_scope.
Open Scope Z_scope.
Set Warnings "-register-all".

(** ** JSON values and JavaScript truthiness *)

(** Response payloads are JSON documents.  The cache stores
    [JSON.stringify(data)] and a hit answers [JSON.parse] of it; for JSON
    documents the two are inverse, so a stored entry is represented by the
    JSON value its text encodes. *)
Inductive jval : Type :=
| JNull
| JBool (b : bool)
| JNum (n : Z)
| JStr (s : string)
| JArr (xs : list jval)
| JObj (fields : list (string * jval)).

(** A JavaScript string-valued expression that may be [undefined]. *)
Definition jsstr := option string.

Definition str_truthy (s : jsstr) : bool :=
  match s with
  | Some x => negb (String.eqb x "")
  | None => false
  end.

(** [a || b] on string-or-undefined operands. *)
Definition js_or (a b : jsstr) : jsstr := if str_truthy a then a else b.

(** Template-literal rendering [`${x}`] of a string-or-undefined. *)
Definition render (s : jsstr) : string :=
  match s with
  | Some x => x
  | None => "undefined"
  end.

Definition truthy (v : jval) : bool :=
  match v with
  | JNull => false
  | JBool b => b
  | JNum n => negb (Z.eqb n 0)
  | JStr s => negb (String.eqb s "")
  | JArr _ | JObj _ => true
  end.

(** [o.f]: property access; [undefined] is [None]. *)
Definition field (f : string) (v : jval) : option jval :=
  match v with
  | JObj fs =>
      match find (fun p => String.eqb (fst p) f) fs with
      | Some (_, x) => Some x
      | None => None
      end
  | _ => None
  end.

Definition opt_truthy (v : option jval) : bool :=
  match v with
  | Some x => truthy x
  | None => false
  end.

(** [data && data.success] *)
Definition success_truthy (data : jval) : bool :=
  truthy data && opt_truthy (field "success" data).

(** ** Requests and responses (the parts of Express's [req] the code reads) *)

Record Req : Type := mkReq {
  method : string;
  route_path : jsstr;                   (** [req.route?.path] *)
  path : string;                        (** [req.path] *)
  params : list (string * string);      (** [req.params] *)
  query : list (string * string)        (** [req.query], in request order *)
}.

Definition lookup (k : string) (l : list (string * string)) : jsstr :=
  match find (fun p => String.eqb (fst p) k) l with
  | Some (_, v) => Some v
  | None => None
  end.

Definition param (r : Req) (k : string) : jsstr := lookup k (params r).
Definition qparam (r : Req) (k : string) : jsstr := lookup k (query r).

Record Resp : Type := mkResp { status : Z; body : jval }.

(** ** [generateCacheKey] (cache.ts, lines 9-21) *)

Definition generateCacheKey (req : Req) : string :=
  let userId := js_or (param req "userId") (qparam req "userId") in
  let period := qparam req "period" in
  let trackerId := qparam req "trackerId" in
  let startDate := qparam req "startDate" in
  let endDate := qparam req "endDate" in
  let key := "cache:" ++ render (js_or (route_path req) (Some (path req)))
             ++ ":" ++ render userId in
  let key := if str_truthy period then key ++ ":" ++ render period else key in
  let key := if str_truthy trackerId
             then key ++ ":tracker:" ++ render trackerId else key in
  let key := if str_truthy startDate && str_truthy endDate
             then key ++ ":" ++ render startDate ++ ":" ++ render endDate
             else key in
  key.

(** ** The Redis store

    Keys map to a stored value and the TTL (seconds) it was written with.
    [GET] neither changes an entry nor refreshes its TTL; [SETEX] replaces
    the entry; [KEYS pattern] lists the matching keys; [DEL] removes keys.
    Every store command is recorded in a trace, and a command may fail
    (connection error, timeout), which rejects its promise. *)

Definition Store := list (string * (jval * Z)).

Inductive StoreOp : Type :=
| OpGet (k : string)
| OpSetex (k : string) (ttl : Z) (v : jval)
| OpKeys (pattern : string)
| OpDel (ks : list string).

Inductive Log : Type :=
| LogInfo (msg : string)
| LogError (msg : string).

Fixpoint redis_get (k : string) (st : Store) : option (jval * Z) :=
  match st with
  | [] => None
  | (k', e) :: st' => if String.eqb k k' then Some e else redis_get k st'
  end.

Definition redis_del_one (k : string) (st : Store) : Store :=
  filter (fun e => negb (String.eqb (fst e) k)) st.

Definition redis_setex (k : string) (ttl : Z) (v : jval) (st : Store) : Store :=
  (k, (v, ttl)) :: redis_del_one k st.

Definition redis_del (ks : list string) (st : Store) : Store :=
  filter (fun e => negb (existsb (String.eqb (fst e)) ks)) st.

(** Redis glob matching ([stringmatchlen]) for [*], [?] and literal
    characters; the patterns built by the code contain no character class. *)
Fixpoint glob (p s : string) : bool :=
  match p with
  | EmptyString => match s with EmptyString => true | _ => false end
  | String "*" p' =>
      (fix star (s : string) : bool :=
         glob p' s || match s with
                      | EmptyString => false
                      | String _ s' => star s'
                      end) s
  | String "?" p' =>
      match s with EmptyString => false | String _ s' => glob p' s' end
  | String c p' =>
      match s with
      | EmptyString => false
      | String d s' => Ascii.eqb c d && glob p' s'
      end
  end.

Definition redis_keys (pattern : string) (st : Store) : list string :=
  filter (glob pattern) (map fst st).

(** Which store commands fail in a given run. *)
Record Faults : Type := mkFaults {
  get_fails : bool;
  setex_fails : bool;
  keys_fails : bool;
  del_fails : bool
}.

Definition no_faults : Faults := mkFaults false false false false.

(** ** [CACHE_TTL] and [cacheMiddleware] (cache.ts, lines 5-77) *)

Definition CACHE_TTL : Z := 5 * 60.

(** Result of running a request through a middleware chain. *)
Record Outcome : Type := mkOutcome {
  out_resp : Resp;
  out_store : Store;
  out_ops : list StoreOp;
  out_logs : list Log;
  out_handler_ran : bool
}.

(** The overridden [res.json] on a miss: cache successful payloads, then
    send.  A failing [setex] only logs. *)
Definition cached_json (f : Faults) (cacheKey : string) (resp : Resp)
    (st : Store) : Store * list StoreOp * list Log :=
  let data := body resp in
  if success_truthy data then
    if setex_fails f then
      (st, [OpSetex cacheKey CACHE_TTL data],
       [LogError ("Failed to cache data for key: " ++ cacheKey)])
    else
      (redis_setex cacheKey CACHE_TTL data st,
       [OpSetex cacheKey CACHE_TTL data],
       [LogInfo ("Cached data for key: " ++ cacheKey)])
  else (st, [], []).

Definition cacheMiddleware (handler : Req -> Resp) (f : Faults) (st : Store)
    (req : Req) : Outcome :=
  if negb (String.eqb (method req) "GET") then
    mkOutcome (handler req) st [] [] true
  else
    let cacheKey := generateCacheKey req in
    if get_fails f then
      mkOutcome (handler req) st [OpGet cacheKey]
        [LogError ("Redis error for key: " ++ cacheKey)] true
    else
      match redis_get cacheKey st with
      | Some (cachedData, _) =>
          mkOutcome (mkResp 200 cachedData) st [OpGet cacheKey]
            [LogInfo ("Cache hit for key: " ++ cacheKey)] false
      | None =>
          let resp := handler req in
          let '(st', ops, logs) := cached_json f cacheKey resp st in
          mkOutcome resp st' (OpGet cacheKey :: ops)
            (LogInfo ("Cache miss for key: " ++ cacheKey) :: logs) true
      end.

(** ** [invalidateUserCache] (cache.ts, lines 80-94) *)

Definition user_pattern (userId : string) : string :=
  "cache:*:" ++ userId ++ "*".

Definition invalidateUserCache (f : Faults) (userId : string)
    (pattern : jsstr) (st : Store) : Store * list StoreOp * list Log :=
  let searchPattern := render (js_or pattern (Some (user_pattern userId))) in
  if keys_fails f then
    (st, [OpKeys searchPattern],
     [LogError ("Failed to invalidate cache for user: " ++ userId)])
  else
    let keys := redis_keys searchPattern st in
    if Nat.ltb 0 (length keys) then
      if del_fails f then
        (st, [OpKeys searchPattern; OpDel keys],
         [LogError ("Failed to invalidate cache for user: " ++ userId)])
      else
        (redis_del keys st, [OpKeys searchPattern; OpDel keys],
         [LogInfo ("Invalidated cache entries for user: " ++ userId)])
    else (st, [OpKeys searchPattern], []).

(** ** [invalidateAllCacheMiddleware] (cache.ts, lines 105-147) *)

(** [data.data?.userId]; the [userId] of a tracker or session record is a
    string column, so other JSON types do not occur there. *)
Definition result_userId (data : jval) : jsstr :=
  match field "data" data with
  | Some d =>
      match field "userId" d with
      | Some (JStr s) => Some s
      | _ => None
      end
  | None => None
  end.

(** [req.params.userId || req.query.userId || data.data?.userId] *)
Definition resolve_userId (req : Req) (data : jval) : jsstr :=
  js_or (js_or (param req "userId") (qparam req "userId")) (result_userId data).

(** The invalidation the overridden [res.json] starts for a response:
    [Some u] when it calls [invalidateUserCache u], [None] when it does not. *)
Definition invalidation_target (req : Req) (data : jval) : option string :=
  if (String.eqb (method req) "POST" || String.eqb (method req) "PUT")
     && success_truthy data then
    let userId := resolve_userId req data in
    if str_truthy userId then Some (render userId) else None
  else None.

(** The handler's response is sent, and the invalidation it started runs to
    completion against the store (it is not awaited by the response). *)
Definition invalidateAllCacheMiddleware (handler : Req -> Resp) (f : Faults)
    (st : Store) (req : Req) : Outcome :=
  let resp := handler req in
  match invalidation_target req (body resp) with
  | Some userId =>
      let '(st', ops, logs) := invalidateUserCache f userId None st in
      mkOutcome resp st' ops
        (logs ++ [LogInfo ("User cache invalidated for userId: " ++ userId
                           ++ " after successful " ++ method req
                           ++ " operation")]) true
  | None => mkOutcome resp st [] [] true
  end.

(** ** Read controllers (trackerController.ts, lines 348-611) *)

Definition error_body (msg : string) : jval :=
  JObj [("success", JBool false); ("error", JStr msg)].

Definition internal_error : Resp :=
  mkResp 500 (JObj [("error", JStr "Internal server error")]).

(** [if (result.success) res.status(200).json(result) else
    res.status(400).json(result)]; a rejected service call ([None]) reaches
    the [catch] and answers 500. *)
Definition respond_result (result : option jval) : Resp :=
  match result with
  | Some res =>
      if opt_truthy (field "success" res) then mkResp 200 res
      else mkResp 400 res
  | None => internal_error
  end.

(** [new Date(s)] as milliseconds since the epoch, [None] for an invalid
    date ([isNaN(d.getTime())]). *)
Definition DateParser := string -> option Z.

(** The custom-range controllers [getDailyTotals], [getTotalHours] and
    [getProductivityTrend] differ only in the service function they call. *)
Definition range_controller (js_date : DateParser)
    (call : jsstr -> Z -> Z -> jsstr -> option jval) (req : Req) : Resp :=
  let userId := param req "userId" in
  let startDate := qparam req "startDate" in
  let endDate := qparam req "endDate" in
  let trackerId := qparam req "trackerId" in
  if negb (str_truthy startDate) || negb (str_truthy endDate) then
    mkResp 400 (error_body "startDate and endDate query parameters are required")
  else
    match js_date (render startDate), js_date (render endDate) with
    | Some start, Some end_ => respond_result (call userId start end_ trackerId)
    | _, _ => mkResp 400 (error_body "Invalid date format. Use YYYY-MM-DD")
    end.

Definition valid_period (period : jsstr) : bool :=
  match period with
  | Some p => existsb (String.eqb p) ["week"; "month"; "year"]
  | None => false
  end.

(** The period controllers [getDailyTotalsForPeriod], [getTotalHoursForPeriod]
    and [getProductivityTrendForPeriod]. *)
Definition period_controller (call : jsstr -> string -> jsstr -> option jval)
    (req : Req) : Resp :=
  let userId := param req "userId" in
  let period := param req "period" in
  let trackerId := qparam req "trackerId" in
  if negb (valid_period period) then
    mkResp 400 (error_body "Period must be one of: week, month, year")
  else respond_result (call userId (render period) trackerId).

Definition getTodayStats (call : jsstr -> jsstr -> option jval) (req : Req)
    : Resp :=
  respond_result (call (param req "userId") (qparam req "trackerId")).

(** The tracker service functions the read controllers call. *)
Record TrackerService : Type := mkService {
  getDailyTotalsForUser : jsstr -> Z -> Z -> jsstr -> option jval;
  getDailyTotalsForPeriod : jsstr -> string -> jsstr -> option jval;
  getTotalHoursForUser : jsstr -> Z -> Z -> jsstr -> option jval;
  getTotalHoursForPeriod : jsstr -> string -> jsstr -> option jval;
  getProductivityTrendForUser : jsstr -> Z -> Z -> jsstr -> option jval;
  getProductivityTrendForPeriod : jsstr -> string -> jsstr -> option jval;
  svc_getTodayStats : jsstr -> jsstr -> option jval
}.

(** ** Read routes (trackerRoutes.ts): every analytics GET route runs
    [cacheMiddleware] before its controller. *)
Definition read_route (js_date : DateParser) (svc : TrackerService)
    (routePath : string) : option (Req -> Resp) :=
  if String.eqb routePath "/users/:userId/daily-totals" then
    Some (range_controller js_date (getDailyTotalsForUser svc))
  else if String.eqb routePath "/users/:userId/daily-totals/:period" then
    Some (period_controller (getDailyTotalsForPeriod svc))
  else if String.eqb routePath "/users/:userId/total-hours" then
    Some (range_controller js_date (getTotalHoursForUser svc))
  else if String.eqb routePath "/users/:userId/total-hours/:period" then
    Some (period_controller (getTotalHoursForPeriod svc))
  else if String.eqb routePath "/users/:userId/productivity-trend" then
    Some (range_controller js_date (getProductivityTrendForUser svc))
  else if String.eqb routePath "/users/:userId/productivity-trend/:period" then
    Some (period_controller (getProductivityTrendForPeriod svc))
  else if String.eqb routePath "/users/:userId/today" then
    Some (getTodayStats (svc_getTodayStats svc))
  else None.

(** A GET request matched to a read route. *)
Definition serve_read (js_date : DateParser) (svc : TrackerService)
    (f : Faults) (st : Store) (req : Req) : option Outcome :=
  match read_route js_date svc (render (route_path req)) with
  | Some handler => Some (cacheMiddleware handler f st req)
  | None => None
  end.

(** ** Calendar dates

    A calendar date is its day number counted from 1970-01-01 (UTC);
    [days_from_civil] is the proleptic Gregorian conversion. *)

Definition Date := Z.

Definition days_from_civil (y m d : Z) : Date :=
  let y := if m <=? 2 then y - 1 else y in
  let era := y / 400 in
  let yoe := y - era * 400 in
  let doy := (153 * (if m >? 2 then m - 3 else m + 9) + 2) / 5 + d - 1 in
  let doe := yoe * 365 + yoe / 4 - yoe / 100 + doy in
  era * 146097 + doe - 719468.

(** ** Period resolver (tracker service) *)

Inductive ServiceError : Type := InvalidPeriod | InvalidRange | NotFound.

(** Modelled from the spec: the period resolution of
    [trackerService.getDailyTotalsForPeriod] (and of the total-hours and
    productivity-trend variants), which is not among the sources (spec 4.1):
    a named period becomes the inclusive range ending at [today]. *)
Definition resolve (period : string) (today : Date)
    : (Date * Date) + ServiceError :=
  if String.eqb period "week" then inl (today - 6, today)
  else if String.eqb period "month" then inl (today - 29, today)
  else if String.eqb period "year" then inl (today - 364, today)
  else inr InvalidPeriod.

(** ** Daily bucket aggregator (tracker service) *)

Definition MINUTES_PER_DAY : Z := 1440.

Record Session : Type := mkSession {
  s_tracker : string;
  s_start : Z;              (** instant, minutes since the epoch *)
  s_end : option Z          (** [None] while the session is active *)
}.

Record Tracker : Type := mkTracker { t_id : string; t_user : string }.

Record DailyBucket : Type := mkBucket {
  b_date : Date;
  totalMinutes : Z;
  sessionCount : Z
}.

Definition session_end (now : Z) (s : Session) : Z :=
  match s_end s with Some e => e | None => now end.

(** Minutes of [s] that fall inside day [d]. *)
Definition overlap_minutes (now : Z) (d : Date) (s : Session) : Z :=
  Z.max 0 (Z.min (session_end now s) ((d + 1) * MINUTES_PER_DAY)
           - Z.max (s_start s) (d * MINUTES_PER_DAY)).

Definition overlaps (now : Z) (d : Date) (s : Session) : bool :=
  (s_start s <? (d + 1) * MINUTES_PER_DAY)
  && (d * MINUTES_PER_DAY <? session_end now s).

Definition bucket_for (now : Z) (ss : list Session) (d : Date) : DailyBucket :=
  mkBucket d
    (fold_right Z.add 0 (map (overlap_minutes now d) ss))
    (Z.of_nat (length (filter (overlaps now d) ss))).

Definition range_days (startDate endDate : Date) : list Date :=
  map (fun i => startDate + Z.of_nat i)
      (seq 0 (Z.to_nat (endDate - startDate + 1))).

(** Sessions in scope: those of the user's trackers, or of the one tracker. *)
Definition in_scope (trackers : list Tracker) (userId : string)
    (trackerId : option string) (s : Session) : bool :=
  existsb (fun t => String.eqb (t_id t) (s_tracker s)
                    && String.eqb (t_user t) userId) trackers
  && match trackerId with
     | Some tid => String.eqb tid (s_tracker s)
     | None => true
     end.

(** Modelled from the spec: [trackerService.getDailyTotalsForUser], which is
    not among the sources (spec 4.2): one bucket per date of the inclusive
    range, sessions clipped to each UTC day, active sessions ending at
    [now]; [InvalidRange] when the range is reversed, [NotFound] when the
    tracker is unknown or not the user's. *)
Definition aggregate (trackers : list Tracker) (sessions : list Session)
    (now : Z) (userId : string) (trackerId : option string)
    (range : Date * Date) : list DailyBucket + ServiceError :=
  let '(startDate, endDate) := range in
  if endDate <? startDate then inr InvalidRange
  else if match trackerId with
          | Some tid => negb (existsb (fun t => String.eqb (t_id t) tid
                                               && String.eqb (t_user t) userId)
                                      trackers)
          | None => false
          end
  then inr NotFound
  else
    let ss := filter (in_scope trackers userId trackerId) sessions in
    inl (map (bucket_for now ss) (range_days startDate endDate)).

(** ** Concrete requests and a tracker service used by the examples *)

Definition get_req (routePath p : string) (ps qs : list (string * string)) : Req :=
  mkReq "GET" (Some routePath) p ps qs.

Definition period_req (userId period : string) : Req :=
  get_req "/users/:userId/daily-totals/:period"
    ("/users/" ++ userId ++ "/daily-totals/" ++ period)
    [("userId", userId); ("period", period)] [].

Definition week_data : jval :=
  JObj [("success", JBool true);
        ("data", JArr [JObj [("date", JStr "2025-09-10");
                             ("totalMinutes", JNum 480);
                             ("sessionCount", JNum 1)]])].

(** A service whose calls all succeed with [week_data]. *)
Definition demo_service : TrackerService :=
  mkService (fun _ _ _ _ => Some week_data) (fun _ _ _ => Some week_data)
    (fun _ _ _ _ => Some week_data) (fun _ _ _ => Some week_data)
    (fun _ _ _ _ => Some week_data) (fun _ _ _ => Some week_data)
    (fun _ _ => Some week_data).

(** [new Date(s)] for the ISO dates of the examples. *)
Definition demo_dates : DateParser :=
  fun s => if String.eqb s "2025-09-04" then Some 1756944000000
           else if String.eqb s "2025-09-06" then Some 1757116800000
           else None.

(** ** Validation failures of the read controllers *)

Definition range_routes : list string :=
  ["/users/:userId/daily-totals"; "/users/:userId/total-hours";
   "/users/:userId/productivity-trend"].

Definition period_routes : list string :=
  ["/users/:userId/daily-totals/:period"; "/users/:userId/total-hours/:period";
   "/users/:userId/productivity-trend/:period"].

Definition range_invalid (js_date : DateParser) (req : Req) : bool :=
  let startDate := qparam req "startDate" in
  let endDate := qparam req "endDate" in
  negb (str_truthy startDate) || negb (str_truthy endDate)
  || match js_date (render startDate), js_date (render endDate) with
     | Some _, Some _ => false
     | _, _ => true
     end.

Definition fails_validation (js_date : DateParser) (req : Req) : bool :=
  let rp := render (route_path req) in
  (existsb (String.eqb rp) range_routes && range_invalid js_date req)
  || (existsb (String.eqb rp) period_routes
      && negb (valid_period (param req "period"))).

Definition is_setex (op : StoreOp) : bool :=
  match op with OpSetex _ _ _ => true | _ => false end.

(** [success] is [true] in a payload (top-level flag). *)
Definition success_flag_true (data : jval) : bool :=
  match field "success" data with Some (JBool true) => true | _ => false end.

(** Response envelopes are objects whose [success] member, when present, is a
    boolean (the service results and the controllers' error literals). *)
Definition typed_envelope (data : jval) : bool :=
  match data with
  | JObj _ =>
      match field "success" data with
      | None | Some (JBool _) => true
      | _ => false
      end
  | _ => false
  end.

Definition post_tracker_req : Req :=
  mkReq "POST" (Some "/trackers") "/trackers" [] [].

Definition created_tracker (userId : string) : jval :=
  JObj [("success", JBool true);
        ("data", JObj [("id", JStr "t1"); ("userId", JStr userId)])].

Definition two_user_store : Store :=
  [("cache:/users/:userId/daily-totals:u1:2025-09-04:2025-09-06", (week_data, 300));
   ("cache:/users/:userId/daily-totals:u10:2025-09-04:2025-09-06", (week_data, 300))].

(** A custom-range request without [endDate]. *)
Definition missing_end_req : Req :=
  get_req "/users/:userId/daily-totals" "/users/u1/daily-totals"
    [("userId", "u1")] [("startDate", "2025-09-04")].

(** An invalidation for [u]: the first store command lists the keys of the
    pattern [cache:*:<u>*], and when the store answers, exactly those keys
    are deleted. *)
Definition invalidates_user (f : Faults) (st : Store) (u : string)
    (o : Outcome) : Prop :=
  hd_error (out_ops o) = Some (OpKeys (user_pattern u))
  /\ (keys_fails f = false -> del_fails f = false ->
      out_store o = redis_del (redis_keys (user_pattern u) st) st).

(** ** [invalidateTrackerCache] (cache.ts, lines 97-102) *)

Definition tracker_pattern (userId trackerId : string) : string :=
  "cache:*:" ++ userId ++ "*tracker:" ++ trackerId ++ "*".

Definition invalidateTrackerCache (f : Faults) (userId trackerId : string)
    (st : Store) : Store * list StoreOp * list Log :=
  invalidateUserCache f userId (Some (tracker_pattern userId trackerId)) st.

(** No [*] or [?] in a string: it matches itself literally in a pattern. *)
Fixpoint glob_free (s : string) : bool :=
  match s with
  | EmptyString => true
  | String c s' => negb (Ascii.eqb c "*") && negb (Ascii.eqb c "?") && glob_free s'
  end.

(** ** Mutating controllers (trackerController.ts, lines 7-250)

    [req.body] is a JSON object; a missing member is [None] ([undefined]).
    The sequence of [res.json] calls a controller makes is returned: the
    client receives the first one. *)

Definition Body := list (string * jval).

Definition body_field (b : Body) (k : string) : option jval :=
  match find (fun p => String.eqb (fst p) k) b with
  | Some (_, v) => Some v
  | None => None
  end.

(** [parseInt(x, 10)] of the JavaScript host, [None] for [NaN]. *)
Definition ParseInt := jval -> option Z.

(** The object [trackerService.addTracker] receives. *)
Record NewTracker : Type := mkNewTracker {
  nt_userId : option jval;
  nt_trackerName : option jval;
  nt_targetHours : option Z;            (** [None] is [NaN] *)
  nt_description : jval;
  nt_workDays : option jval
}.

(** The [updateData] object of [editTracker]: each member is present
    ([Some]) or absent. *)
Record UpdateData : Type := mkUpdate {
  up_trackerName : option jval;
  up_targetHours : option (option Z);   (** inner [None] is [NaN] *)
  up_description : option jval;
  up_workDays : option jval
}.

Record MutationService : Type := mkMutationService {
  svc_addTracker : NewTracker -> option jval;
  svc_startTracker : jsstr -> option jval;
  svc_stopTracker : jsstr -> option jval;
  svc_archiveTracker : jsstr -> option jval;
  svc_unarchiveTracker : jsstr -> option jval;
  svc_deleteTracker : jsstr -> option jval;
  svc_editTracker : jsstr -> UpdateData -> option jval
}.

Definition opt_jtruthy (v : option jval) : bool :=
  match v with Some x => truthy x | None => false end.

(** [if (result.success) res.status(ok).json(result) else
    res.status(400).json(result)], inside a [try] whose [catch] only logs:
    a rejected service call sends nothing. *)
Definition respond_or_silent (ok : Z) (result : option jval) : list Resp :=
  match result with
  | Some res =>
      if opt_truthy (field "success" res) then [mkResp ok res] else [mkResp 400 res]
  | None => []
  end.

Definition addTracker (parseInt : ParseInt) (svc : MutationService) (req : Req)
    (b : Body) : list Resp :=
  let trackerName := body_field b "trackerName" in
  let targetHours := body_field b "targetHours" in
  let description := body_field b "description" in
  let workDays := body_field b "workDays" in
  let userId := body_field b "userId" in
  if negb (opt_jtruthy trackerName) || negb (opt_jtruthy targetHours)
     || negb (opt_jtruthy userId) then
    [mkResp 400 (error_body "Tracker name, target hours, and user ID are required")]
  else
    respond_or_silent 201
      (svc_addTracker svc
         (mkNewTracker userId trackerName
            (match targetHours with Some t => parseInt t | None => None end)
            (if opt_jtruthy description then
               match description with Some d => d | None => JStr "" end
             else JStr "")
            workDays)).

Definition startTracker (svc : MutationService) (req : Req) : list Resp :=
  let trackerId := param req "id" in
  if negb (str_truthy trackerId) then
    [mkResp 400 (JObj [("error", JStr "Tracker ID is required")])]
  else respond_or_silent 200 (svc_startTracker svc trackerId).

(** The missing-id branch answers 400 but has no [return]: the service is
    called anyway and its result is answered too. *)
Definition stopTracker (svc : MutationService) (req : Req) : list Resp :=
  let trackerId := param req "id" in
  let first := if negb (str_truthy trackerId)
               then [mkResp 400 (error_body "Tracker ID is required")] else [] in
  app first (respond_or_silent 200 (svc_stopTracker svc trackerId)).

(** [archiveTracker], [unarchiveTracker] and [deleteTracker] share this shape. *)
Definition id_controller (call : jsstr -> option jval) (req : Req) : list Resp :=
  let id := param req "id" in
  if negb (str_truthy id) then [mkResp 400 (error_body "Tracker ID is required")]
  else respond_or_silent 200 (call id).

Definition archiveTracker (svc : MutationService) : Req -> list Resp :=
  id_controller (svc_archiveTracker svc).
Definition unarchiveTracker (svc : MutationService) : Req -> list Resp :=
  id_controller (svc_unarchiveTracker svc).
Definition deleteTracker (svc : MutationService) : Req -> list Resp :=
  id_controller (svc_deleteTracker svc).

Definition editTracker (parseInt : ParseInt) (svc : MutationService) (req : Req)
    (b : Body) : list Resp :=
  let id := param req "id" in
  let trackerName := body_field b "trackerName" in
  let targetHours := body_field b "targetHours" in
  let description := body_field b "description" in
  let workDays := body_field b "workDays" in
  if negb (str_truthy id) then [mkResp 400 (error_body "Tracker ID is required")]
  else if match targetHours with
          | Some t => match parseInt t with Some n => n <=? 0 | None => true end
          | None => false
          end
  then [mkResp 400 (error_body "Target hours must be a positive number")]
  else
    let updateData :=
      mkUpdate trackerName
        (match targetHours with Some t => Some (parseInt t) | None => None end)
        description workDays in
    match trackerName, targetHours, description, workDays with
    | None, None, None, None =>
        [mkResp 400 (error_body "At least one field must be provided for update")]
    | _, _, _, _ =>
        match svc_editTracker svc id updateData with
        | Some res =>
            if opt_truthy (field "success" res) then [mkResp 200 res]
            else [mkResp 400 res]
        | None => [mkResp 500 (error_body "Internal server error")]
        end
    end.

(** ** Mutating routes (trackerRoutes.ts, lines 10-16)

    [invalidateAllCacheMiddleware] wraps [res.json]: each [res.json] call
    of the controller first starts the invalidation for its payload. *)
Fixpoint invalidate_each (f : Faults) (req : Req) (rs : list Resp) (st : Store)
    : Store * list StoreOp :=
  match rs with
  | [] => (st, [])
  | r :: rs' =>
      let '(st1, ops1) :=
        match invalidation_target req (body r) with
        | Some userId =>
            let '(st', ops, _) := invalidateUserCache f userId None st in (st', ops)
        | None => (st, [])
        end in
      let '(st2, ops2) := invalidate_each f req rs' st1 in
      (st2, app ops1 ops2)
  end.

(** A mutating request on [router]: the json calls of the controller and the
    store after the invalidations the middleware started. *)
Definition serve_mutation (parseInt : ParseInt) (svc : MutationService)
    (f : Faults) (st : Store) (req : Req) (b : Body)
    : option (list Resp * Store * list StoreOp) :=
  let rp := render (route_path req) in
  let with_invalidation (rs : list Resp) :=
    let '(st', ops) := invalidate_each f req rs st in Some (rs, st', ops) in
  if String.eqb (method req) "POST" then
    if String.eqb rp "/trackers" then with_invalidation (addTracker parseInt svc req b)
    else if String.eqb rp "/trackers/:id/start" then with_invalidation (startTracker svc req)
    else if String.eqb rp "/trackers/:id/stop" then with_invalidation (stopTracker svc req)
    else if String.eqb rp "/trackers/:id/archive" then
      with_invalidation (archiveTracker svc req)
    else if String.eqb rp "/trackers/:id/unarchive" then
      with_invalidation (unarchiveTracker svc req)
    else None
  else if String.eqb (method req) "DELETE" then
    if String.eqb rp "/trackers/:id" then Some (deleteTracker svc req, st, [])
    else None
  else None.

(** [parseInt(x, 10)] on decimal strings without sign or blanks, for the
    examples. *)
Fixpoint digits_value (s : string) (acc : Z) : option Z :=
  match s with
  | EmptyString => Some acc
  | String c s' =>
      let n := Z.of_nat (nat_of_ascii c) - 48 in
      if (0 <=? n) && (n <=? 9) then digits_value s' (10 * acc + n) else None
  end.

Definition demo_parseInt : ParseInt :=
  fun v => match v with
           | JStr (String c s) => digits_value (String c s) 0
           | JNum n => Some n
           | _ => None
           end.

Definition demo_mutations : MutationService :=
  mkMutationService (fun _ => Some (created_tracker "u1"))
    (fun _ => Some (created_tracker "u1")) (fun _ => Some (created_tracker "u1"))
    (fun _ => Some (created_tracker "u1")) (fun _ => Some (created_tracker "u1"))
    (fun _ => Some (created_tracker "u1")) (fun _ _ => Some (created_tracker "u1")).

(** * Lemmas *)

Lemma lookup_In_NoDup (k v : string) (l : list (string * string)) :
  NoDup (map fst l) -> (lookup k l = Some v <-> In (k, v) l).
Proof.
  unfold lookup. induction l as [|[k' v'] l IH]; simpl; intros Hnd.
  - split; [discriminate | tauto].
  - inversion Hnd as [|? ? Hnin Hnd']; subst.
    destruct (String.eqb_spec k' k) as [->|Hne]; simpl.
    + split.
      * intros [= ->]. now left.
      * intros [[= ->]|Hin]; [reflexivity|].
        exfalso. apply Hnin. change k with (fst (k, v)). now apply in_map.
    + rewrite IH by exact Hnd'. split; [now right|].
      intros [[= -> ->]|Hin]; [congruence|exact Hin].
Qed.

Lemma lookup_perm (k : string) (l l' : list (string * string)) :
  NoDup (map fst l) -> Permutation l l' -> lookup k l = lookup k l'.
Proof.
  intros Hnd Hp.
  assert (Hnd' : NoDup (map fst l')) by
    (eapply Permutation_NoDup; [apply Permutation_map; exact Hp | exact Hnd]).
  destruct (lookup k l) as [v|] eqn:E.
  - symmetry. apply lookup_In_NoDup; [exact Hnd'|].
    apply (Permutation_in _ Hp). now apply lookup_In_NoDup.
  - destruct (lookup k l') as [v|] eqn:E'; [|reflexivity].
    apply lookup_In_NoDup in E'; [|exact Hnd'].
    apply (Permutation_in _ (Permutation_sym Hp)) in E'.
    apply (lookup_In_NoDup k v l Hnd) in E'. congruence.
Qed.

(** X1.  The key depends on the query only through its values, not through
    the order of the parameters. *)
Lemma generateCacheKey_query_order (req : Req) (q : list (string * string)) :
  NoDup (map fst (query req)) -> Permutation (query req) q ->
  generateCacheKey req
  = generateCacheKey (mkReq (method req) (route_path req) (path req)
                       (params req) q).
Proof.
  intros Hnd Hp. unfold generateCacheKey, qparam. simpl.
  rewrite !(lookup_perm _ _ _ Hnd Hp). reflexivity.
Qed.

(** * Claims *)

(** ** Cache key derivation *)

(** C1 (code_bug).  The claim: requests differing only in the period, such as
    [/daily-totals/week] and [/daily-totals/year] of one user, get distinct
    keys.  [generateCacheKey] reads [period] from [req.query] while the
    period routes carry it in [req.params], so both requests get the key
    [cache:/users/:userId/daily-totals/:period:u1]. *)
Theorem cache_key_week_equals_year :
  generateCacheKey (period_req "u1" "week")
  = generateCacheKey (period_req "u1" "year")
  /\ generateCacheKey (period_req "u1" "week")
     = "cache:/users/:userId/daily-totals/:period:u1".
Proof. split; reflexivity. Qed.

(** ** Invalid periods and the shared key *)

(** C9 (code_bug).  The claim: a period other than week, month or year
    fails with 400 and [success: false].  The controller does reject
    [/daily-totals/foo], but after [/daily-totals/week] has been cached the
    request [/daily-totals/foo] has the same key (see C1), hits, and is
    answered 200 with the week payload without reaching the controller. *)
Theorem invalid_period_answered_from_cache :
  period_controller (getDailyTotalsForPeriod demo_service) (period_req "u1" "foo")
    = mkResp 400 (error_body "Period must be one of: week, month, year")
  /\ match serve_read demo_dates demo_service no_faults [] (period_req "u1" "week") with
     | Some o1 =>
         match serve_read demo_dates demo_service no_faults (out_store o1)
                 (period_req "u1" "foo") with
         | Some o2 => out_resp o2 = mkResp 200 week_data
                      /\ out_handler_ran o2 = false
         | None => False
         end
     | None => False
     end.
Proof. vm_compute. split; [reflexivity | split; reflexivity]. Qed.

(** ** Invalidation scope *)

(** C3 (code_bug).  The claim: invalidation for user U leaves every other
    user's entries unchanged.  The pattern [cache:*:u1*] also matches the
    keys of user [u10], so creating a tracker for [u1] deletes [u10]'s
    cached daily totals as well. *)
Theorem invalidation_deletes_other_user :
  let o := invalidateAllCacheMiddleware (fun _ => mkResp 201 (created_tracker "u1"))
             no_faults two_user_store post_tracker_req in
  redis_get "cache:/users/:userId/daily-totals:u10:2025-09-04:2025-09-06"
    two_user_store = Some (week_data, 300)
  /\ redis_get "cache:/users/:userId/daily-totals:u10:2025-09-04:2025-09-06"
       (out_store o) = None
  /\ out_store o = [].
Proof. vm_compute. repeat split; reflexivity. Qed.

(** ** Lemmas on the cache middleware *)

Lemma cached_json_failure (f : Faults) (k : string) (resp : Resp) (st : Store) :
  success_truthy (body resp) = false -> cached_json f k resp st = (st, [], []).
Proof. intros H. unfold cached_json. now rewrite H. Qed.

Lemma range_controller_rejects (js_date : DateParser)
    (call : jsstr -> Z -> Z -> jsstr -> option jval) (req : Req) :
  range_invalid js_date req = true ->
  exists msg, range_controller js_date call req = mkResp 400 (error_body msg).
Proof.
  unfold range_invalid, range_controller.
  destruct (str_truthy (qparam req "startDate")), (str_truthy (qparam req "endDate"));
    simpl; try (intros _; eexists; reflexivity).
  destruct (js_date (render (qparam req "startDate"))),
    (js_date (render (qparam req "endDate")));
    try discriminate; intros _; eexists; reflexivity.
Qed.

Lemma period_controller_rejects (call : jsstr -> string -> jsstr -> option jval)
    (req : Req) :
  valid_period (param req "period") = false ->
  period_controller call req
  = mkResp 400 (error_body "Period must be one of: week, month, year").
Proof. intros H. unfold period_controller. now rewrite H. Qed.

Lemma read_route_rejects (js_date : DateParser) (svc : TrackerService)
    (req : Req) (h : Req -> Resp) :
  read_route js_date svc (render (route_path req)) = Some h ->
  fails_validation js_date req = true ->
  exists msg, h req = mkResp 400 (error_body msg).
Proof.
  unfold fails_validation. remember (render (route_path req)) as rp eqn:Erp.
  clear Erp. intros Hr Hf. unfold read_route in Hr.
  repeat match type of Hr with
  | context [String.eqb rp ?lit] =>
      let E := fresh "E" in destruct (String.eqb rp lit) eqn:E
  end; try discriminate Hr; injection Hr as <-;
  match goal with E : String.eqb rp _ = true |- _ =>
    apply String.eqb_eq in E; subst rp end;
  simpl in Hf;
  rewrite ?andb_false_r, ?orb_false_r, ?andb_true_l, ?orb_false_l in Hf;
  first [ now apply range_controller_rejects
        | exists "Period must be one of: week, month, year";
          apply period_controller_rejects; now apply negb_true_iff
        | discriminate Hf ].
Qed.

Lemma typed_success (d : jval) :
  typed_envelope d = true -> success_truthy d = success_flag_true d.
Proof.
  unfold typed_envelope, success_truthy, success_flag_true.
  destruct d; try discriminate. simpl truthy. rewrite andb_true_l.
  destruct (field "success" (JObj fields)) as [[]|]; simpl;
    try discriminate; try reflexivity.
  destruct b; reflexivity.
Qed.

Lemma redis_get_setex (k : string) (ttl : Z) (v : jval) (st : Store) :
  redis_get k (redis_setex k ttl v st) = Some (v, ttl).
Proof. unfold redis_setex. simpl. now rewrite String.eqb_refl. Qed.

(** ** Validation happens after the cache probe *)

(** C2 (corrected), counterexample.  A custom-range request without
    [endDate] fails validation, yet the cache is read for it first:
    [cacheMiddleware] runs before the controller. *)
Lemma validation_failure_reads_cache :
  fails_validation demo_dates missing_end_req = true
  /\ match serve_read demo_dates demo_service no_faults [] missing_end_req with
     | Some o => In (OpGet "cache:/users/:userId/daily-totals:u1") (out_ops o)
                 /\ status (out_resp o) = 400
     | None => False
     end.
Proof. vm_compute. split; [reflexivity | split; [left; reflexivity | reflexivity]]. Qed.

(** C2 (corrected).  For a read request that fails validation, the cache
    middleware derives the key and reads the cache first; the store is left
    unchanged and nothing is written to it, and when the controller runs it
    answers the validation error (400, [success: false]). *)
Theorem validation_failure_never_cached (js_date : DateParser)
    (svc : TrackerService) (f : Faults) (st : Store) (req : Req) (o : Outcome) :
  method req = "GET" ->
  fails_validation js_date req = true ->
  serve_read js_date svc f st req = Some o ->
  hd_error (out_ops o) = Some (OpGet (generateCacheKey req))
  /\ out_store o = st
  /\ forallb (fun op => negb (is_setex op)) (out_ops o) = true
  /\ (out_handler_ran o = true ->
      exists msg, out_resp o = mkResp 400 (error_body msg)).
Proof.
  intros Hm Hf Hs. unfold serve_read in Hs.
  destruct (read_route js_date svc (render (route_path req))) as [h|] eqn:Hr;
    [|discriminate]. injection Hs as <-.
  destruct (read_route_rejects js_date svc req h Hr Hf) as [msg Hh].
  unfold cacheMiddleware. rewrite Hm. simpl.
  destruct (get_fails f); simpl.
  - repeat split; eauto.
  - destruct (redis_get (generateCacheKey req) st) as [[v t]|]; simpl.
    + repeat split; discriminate.
    + rewrite (cached_json_failure f _ _ st) by (rewrite Hh; reflexivity).
      simpl. repeat split; eauto.
Qed.

(** ** What the cache stores *)

(** C5.  Every cache write stores the handler's payload with the fixed TTL
    [CACHE_TTL] = 300 s and only when its [success] flag is true; on a miss
    a payload is written exactly when that flag is true, and then the entry
    holds it with TTL 300. *)
Theorem cache_writes_success_with_fixed_ttl (h : Req -> Resp) (f : Faults)
    (st : Store) (req : Req) :
  typed_envelope (body (h req)) = true ->
  let o := cacheMiddleware h f st req in
  let key := generateCacheKey req in
  (forall k t v, In (OpSetex k t v) (out_ops o) ->
     t = CACHE_TTL /\ CACHE_TTL = 300 /\ v = body (h req)
     /\ success_flag_true v = true)
  /\ (method req = "GET" -> get_fails f = false -> redis_get key st = None ->
      (In (OpSetex key CACHE_TTL (body (h req))) (out_ops o)
       <-> success_flag_true (body (h req)) = true)
      /\ (success_flag_true (body (h req)) = true -> setex_fails f = false ->
          redis_get key (out_store o) = Some (body (h req), 300))
      /\ (success_flag_true (body (h req)) = false -> out_store o = st)).
Proof.
  intros Ht o key. subst o key.
  pose proof (typed_success _ Ht) as Hs.
  unfold cacheMiddleware, cached_json. rewrite Hs.
  destruct (negb (String.eqb (method req) "GET")) eqn:Hm.
  { split.
    - simpl. tauto.
    - intros Hg. apply negb_true_iff in Hm. rewrite Hg in Hm. discriminate. }
  destruct (get_fails f) eqn:Hgf.
  { split.
    - simpl. intros k t v [H|[]]. discriminate.
    - intros _ Hg. discriminate. }
  destruct (redis_get (generateCacheKey req) st) as [[v t]|] eqn:Hget.
  { split.
    - simpl. intros k t' v' [H|[]]. discriminate.
    - intros _ _ Hn. discriminate. }
  destruct (success_flag_true (body (h req))) eqn:Hsf;
    [destruct (setex_fails f) eqn:Hsx|]; simpl.
  - split.
    + intros k t' v' [H|[H|[]]]; [discriminate|]. injection H as <- <- <-.
      repeat split; assumption.
    + intros _ _ _. repeat split; try discriminate; intros _; right; left; reflexivity.
  - split.
    + intros k t' v' [H|[H|[]]]; [discriminate|]. injection H as <- <- <-.
      repeat split; assumption.
    + intros _ _ _. repeat split; try discriminate.
      * intros _; right; left; reflexivity.
      * intros _ _. apply redis_get_setex.
  - split.
    + intros k t' v' [H|[]]. discriminate.
    + intros _ _ _. repeat split; try discriminate; intros [H|[]]; discriminate.
Qed.

(** Witness for C5. *)
Lemma cache_writes_success_with_fixed_ttl_witness :
  typed_envelope week_data = true
  /\ redis_get (generateCacheKey (period_req "u1" "week"))
       (out_store (cacheMiddleware (fun _ => mkResp 200 week_data) no_faults []
                     (period_req "u1" "week")))
     = Some (week_data, 300).
Proof.
  split; [reflexivity|].
  apply (proj2 (cache_writes_success_with_fixed_ttl
                  (fun _ => mkResp 200 week_data) no_faults [] (period_req "u1" "week")
                  eq_refl) eq_refl eq_refl eq_refl); reflexivity.
Defined.

(** ** Fail-open reads *)

(** C6.  For a GET request, a failing cache read is logged and the request
    proceeds to the handler, whose response is sent; on a miss a failing
    cache write is logged and does not change the response; in every case
    the response is the handler's or, on a hit, the stored payload. *)
Theorem cache_store_failure_fails_open (h : Req -> Resp) (f : Faults)
    (st : Store) (req : Req) :
  method req = "GET" ->
  let o := cacheMiddleware h f st req in
  let key := generateCacheKey req in
  (get_fails f = true ->
     out_resp o = h req /\ out_handler_ran o = true
     /\ In (LogError ("Redis error for key: " ++ key)) (out_logs o))
  /\ (get_fails f = false -> redis_get key st = None ->
      out_resp o = h req
      /\ (setex_fails f = true -> success_truthy (body (h req)) = true ->
          In (LogError ("Failed to cache data for key: " ++ key)) (out_logs o)))
  /\ (out_resp o = h req
      \/ (get_fails f = false
          /\ exists t, redis_get key st = Some (body (out_resp o), t)
                       /\ status (out_resp o) = 200)).
Proof.
  intros Hm o key. subst o key.
  unfold cacheMiddleware. rewrite Hm. simpl.
  destruct (get_fails f) eqn:Hg; simpl.
  - repeat split; try discriminate; try (left; reflexivity); auto.
  - destruct (redis_get (generateCacheKey req) st) as [[v t]|] eqn:Hget; simpl.
    + repeat split; try discriminate.
      right. split; [reflexivity|]. exists t. split; reflexivity.
    + unfold cached_json.
      destruct (success_truthy (body (h req))) eqn:Hs;
        [destruct (setex_fails f) eqn:Hsx|]; simpl;
        repeat split; auto; try discriminate.
Qed.

(** Witness for C6: with the store unreachable, a read is answered by the
    controller with its successful payload. *)
Lemma cache_store_failure_fails_open_witness :
  out_resp (cacheMiddleware (period_controller (getDailyTotalsForPeriod demo_service))
              (mkFaults true true true true) [] (period_req "u1" "week"))
  = mkResp 200 week_data.
Proof.
  rewrite (proj1 (proj1 (cache_store_failure_fails_open
             (period_controller (getDailyTotalsForPeriod demo_service))
             (mkFaults true true true true) [] (period_req "u1" "week") eq_refl)
             eq_refl)).
  vm_compute. reflexivity.
Defined.

(** ** Cache hits *)

(** C10.  On a hit the stored payload is answered as it is, the handler does
    not run, the only store command is the read, and the entry (value and
    TTL) is unchanged. *)
Theorem cache_hit_returns_stored (h : Req -> Resp) (f : Faults) (st : Store)
    (req : Req) (v : jval) (t : Z) :
  method req = "GET" -> get_fails f = false ->
  redis_get (generateCacheKey req) st = Some (v, t) ->
  let o := cacheMiddleware h f st req in
  out_resp o = mkResp 200 v
  /\ out_handler_ran o = false
  /\ out_ops o = [OpGet (generateCacheKey req)]
  /\ out_store o = st
  /\ redis_get (generateCacheKey req) (out_store o) = Some (v, t).
Proof.
  intros Hm Hg Hget o. subst o.
  unfold cacheMiddleware. rewrite Hm, Hg, Hget. simpl.
  repeat split. exact Hget.
Qed.

(** Witness for C10. *)
Lemma cache_hit_returns_stored_witness :
  out_resp (cacheMiddleware (fun _ => internal_error) no_faults
              [("cache:/users/:userId/daily-totals/:period:u1", (week_data, 300))]
              (period_req "u1" "week"))
  = mkResp 200 week_data.
Proof.
  apply (cache_hit_returns_stored (fun _ => internal_error) no_faults
           [("cache:/users/:userId/daily-totals/:period:u1", (week_data, 300))]
           (period_req "u1" "week") week_data 300); reflexivity.
Defined.

(** Witness for C2. *)
Lemma validation_failure_never_cached_witness :
  exists o, serve_read demo_dates demo_service no_faults two_user_store
              missing_end_req = Some o
            /\ out_store o = two_user_store.
Proof.
  exists (cacheMiddleware (range_controller demo_dates
                            (getDailyTotalsForUser demo_service))
            no_faults two_user_store missing_end_req).
  assert (H : serve_read demo_dates demo_service no_faults two_user_store
                missing_end_req
              = Some (cacheMiddleware (range_controller demo_dates
                                        (getDailyTotalsForUser demo_service))
                        no_faults two_user_store missing_end_req))
    by reflexivity.
  split; [exact H|].
  exact (proj1 (proj2 (validation_failure_never_cached demo_dates demo_service
                         no_faults two_user_store missing_end_req _
                         eq_refl eq_refl H))).
Defined.

(** ** The invalidation coordinator *)

Lemma redis_del_nil (st : Store) : redis_del [] st = st.
Proof.
  induction st as [|e st IH]; [reflexivity|].
  unfold redis_del in *. simpl. f_equal. exact IH.
Qed.

Lemma invalidateAll_target (h : Req -> Resp) (f : Faults) (st : Store)
    (req : Req) (u : string) :
  invalidation_target req (body (h req)) = Some u ->
  invalidates_user f st u (invalidateAllCacheMiddleware h f st req).
Proof.
  intros Ht. unfold invalidateAllCacheMiddleware. rewrite Ht.
  unfold invalidateUserCache, invalidates_user. simpl.
  destruct (keys_fails f); simpl.
  - split; [reflexivity | discriminate].
  - destruct (Nat.ltb 0 (length (redis_keys (user_pattern u) st))) eqn:Hl.
    + destruct (del_fails f); simpl; split; try reflexivity; discriminate.
    + simpl. split; [reflexivity|]. intros _ _.
      destruct (redis_keys (user_pattern u) st); [|discriminate].
      now rewrite redis_del_nil.
Qed.

Lemma invalidateAll_none (h : Req -> Resp) (f : Faults) (st : Store)
    (req : Req) :
  invalidation_target req (body (h req)) = None ->
  out_ops (invalidateAllCacheMiddleware h f st req) = []
  /\ out_store (invalidateAllCacheMiddleware h f st req) = st.
Proof.
  intros Ht. unfold invalidateAllCacheMiddleware. now rewrite Ht.
Qed.

(** C4.  The coordinator acts only on POST/PUT responses whose [success] is
    set; it takes the user id from the path, else from the query, else from
    the result payload, invalidates [cache:*:<userId>*] for it, and does
    nothing when none of the three yields a user id. *)
Theorem invalidation_coordinator (h : Req -> Resp) (f : Faults) (st : Store)
    (req : Req) :
  let data := body (h req) in
  let o := invalidateAllCacheMiddleware h f st req in
  let p := param req "userId" in
  let q := qparam req "userId" in
  let r := result_userId data in
  ((String.eqb (method req) "POST" || String.eqb (method req) "PUT")
     && success_truthy data = false ->
   out_ops o = [] /\ out_store o = st)
  /\ ((String.eqb (method req) "POST" || String.eqb (method req) "PUT")
        && success_truthy data = true ->
      (str_truthy p = true -> invalidates_user f st (render p) o)
      /\ (str_truthy p = false -> str_truthy q = true ->
          invalidates_user f st (render q) o)
      /\ (str_truthy p = false -> str_truthy q = false -> str_truthy r = true ->
          invalidates_user f st (render r) o)
      /\ (str_truthy p = false -> str_truthy q = false -> str_truthy r = false ->
          out_ops o = [] /\ out_store o = st)).
Proof.
  intros data o p q r. subst data o p q r.
  split.
  - intros Hc. apply invalidateAll_none. unfold invalidation_target. now rewrite Hc.
  - intros Hc.
    assert (Ht : invalidation_target req (body (h req))
                 = let userId := resolve_userId req (body (h req)) in
                   if str_truthy userId then Some (render userId) else None)
      by (unfold invalidation_target; now rewrite Hc).
    unfold resolve_userId, js_or in Ht. simpl in Ht.
    split; [|split; [|split]]; intros Hp; try intros Hq; try intros Hr;
      rewrite ?Hp, ?Hq, ?Hr in Ht; simpl in Ht;
      first [ now apply invalidateAll_target | now apply invalidateAll_none ].
Qed.

(** Witness for C4: creating a tracker for [u1] invalidates [cache:*:u1*]. *)
Lemma invalidation_coordinator_witness :
  invalidates_user no_faults two_user_store "u1"
    (invalidateAllCacheMiddleware (fun _ => mkResp 201 (created_tracker "u1"))
       no_faults two_user_store post_tracker_req).
Proof.
  exact (proj1 (proj2 (proj2 (proj2 (invalidation_coordinator
           (fun _ => mkResp 201 (created_tracker "u1")) no_faults two_user_store
           post_tracker_req) eq_refl))) eq_refl eq_refl eq_refl).
Defined.

(** ** Period resolution *)

(** C8 (from the spec's resolver).  week, month and year resolve to the
    inclusive ranges ending today of 7, 30 and 365 days; for 2025-09-10 the
    week is 2025-09-04..2025-09-10 and the month 2025-08-12..2025-09-10. *)
Theorem resolve_period_ranges :
  (forall today : Date,
      resolve "week" today = inl (today - 6, today)
      /\ resolve "month" today = inl (today - 29, today)
      /\ resolve "year" today = inl (today - 364, today))
  /\ resolve "week" (days_from_civil 2025 9 10)
     = inl (days_from_civil 2025 9 4, days_from_civil 2025 9 10)
  /\ resolve "month" (days_from_civil 2025 9 10)
     = inl (days_from_civil 2025 8 12, days_from_civil 2025 9 10).
Proof.
  split; [intros today; repeat split; reflexivity | split; reflexivity].
Qed.

(** ** Daily buckets *)

Lemma overlap_minutes_zero (now : Z) (d : Date) (s : Session) :
  overlaps now d s = false -> overlap_minutes now d s = 0.
Proof.
  unfold overlaps, overlap_minutes. intros H.
  apply andb_false_iff in H as [H|H]; apply Z.ltb_ge in H; lia.
Qed.

Lemma sum_zero (g : Session -> Z) (ss : list Session) :
  (forall x, In x ss -> g x = 0) -> fold_right Z.add 0 (map g ss) = 0.
Proof.
  induction ss as [|x ss IH]; simpl; intros H; [reflexivity|].
  rewrite H by (left; reflexivity). rewrite IH by (intros y Hy; apply H; now right).
  reflexivity.
Qed.

Lemma nth_error_range_days (s e : Date) (i : nat) (d : Date) :
  nth_error (range_days s e) i = Some d ->
  d = s + Z.of_nat i /\ (i < Z.to_nat (e - s + 1))%nat.
Proof.
  unfold range_days. rewrite nth_error_map, nth_error_seq.
  destruct (Nat.ltb i (Z.to_nat (e - s + 1))) eqn:Hi; simpl; [|discriminate].
  intros [= <-]. apply Nat.ltb_lt in Hi. split; [reflexivity | exact Hi].
Qed.

Lemma in_range_days (s e d : Date) :
  In d (range_days s e) -> s <= d <= e.
Proof.
  unfold range_days. intros Hd. apply in_map_iff in Hd as [i [<- Hi]].
  apply in_seq in Hi. lia.
Qed.

(** C7 (from the spec's aggregator).  For [startDate <= endDate], the
    buckets number [endDate - startDate + 1]; the i-th bucket is dated
    [startDate + i], so dates are consecutive, strictly ascending and
    distinct; every date lies in the range; and a date no session of the
    scope overlaps has 0 minutes and 0 sessions. *)
Theorem aggregate_buckets (trackers : list Tracker) (sessions : list Session)
    (now : Z) (userId : string) (trackerId : option string)
    (startDate endDate : Date) (bs : list DailyBucket) :
  startDate <= endDate ->
  aggregate trackers sessions now userId trackerId (startDate, endDate) = inl bs ->
  Z.of_nat (length bs) = endDate - startDate + 1
  /\ (forall i b, nth_error bs i = Some b -> b_date b = startDate + Z.of_nat i)
  /\ (forall i j bi bj, (i < j)%nat -> nth_error bs i = Some bi ->
        nth_error bs j = Some bj -> b_date bi < b_date bj)
  /\ (forall b, In b bs -> startDate <= b_date b <= endDate)
  /\ (forall b, In b bs ->
        (forall x, In x sessions -> in_scope trackers userId trackerId x = true ->
                   overlaps now (b_date b) x = false) ->
        totalMinutes b = 0 /\ sessionCount b = 0).
Proof.
  intros Hle Hagg. unfold aggregate in Hagg.
  destruct (endDate <? startDate) eqn:Hlt; [apply Z.ltb_lt in Hlt; lia|].
  destruct (match trackerId with
            | Some tid => _ | None => false end); [discriminate|].
  injection Hagg as <-.
  set (ss := filter (in_scope trackers userId trackerId) sessions).
  assert (Hnth : forall i b, nth_error (map (bucket_for now ss)
                                          (range_days startDate endDate)) i = Some b ->
                 b_date b = startDate + Z.of_nat i).
  { intros i b Hb. rewrite nth_error_map in Hb.
    destruct (nth_error (range_days startDate endDate) i) as [d|] eqn:Hd;
      [|discriminate].
    injection Hb as <-. apply nth_error_range_days in Hd. apply Hd. }
  split; [|split; [exact Hnth|split; [|split]]].
  - rewrite length_map. unfold range_days. rewrite length_map, length_seq. lia.
  - intros i j bi bj Hij Hi Hj.
    rewrite (Hnth _ _ Hi), (Hnth _ _ Hj). lia.
  - intros b Hb. apply in_map_iff in Hb as [d [<- Hd]].
    now apply in_range_days.
  - intros b Hb Hno. apply in_map_iff in Hb as [d [<- Hd]]. simpl in *.
    split.
    + apply sum_zero. intros x Hx. apply overlap_minutes_zero.
      apply filter_In in Hx as [Hx Hs]. exact (Hno x Hx Hs).
    + assert (Hf : filter (overlaps now d) ss = []).
      { destruct (filter (overlaps now d) ss) as [|x l] eqn:E; [reflexivity|].
        assert (Hx : In x (filter (overlaps now d) ss)) by (rewrite E; now left).
        apply filter_In in Hx as [Hx Ho]. apply filter_In in Hx as [Hx Hs].
        rewrite (Hno x Hx Hs) in Ho. discriminate. }
      rewrite Hf. reflexivity.
Qed.

(** Witness for C7: the two sessions of the spec's scenario over
    2025-09-04..2025-09-06. *)
Lemma aggregate_buckets_witness :
  let d := days_from_civil 2025 9 4 in
  let ss := [mkSession "T" (d * 1440 + 480) (Some (d * 1440 + 960));
             mkSession "T" ((d + 1) * 1440 + 540) (Some ((d + 1) * 1440 + 570))] in
  aggregate [mkTracker "T" "u"] ss 0 "u" (Some "T") (d, d + 2)
  = inl [mkBucket d 480 1; mkBucket (d + 1) 30 1; mkBucket (d + 2) 0 0]
  /\ Z.of_nat 3 = (d + 2) - d + 1.
Proof.
  intros d ss.
  assert (H : aggregate [mkTracker "T" "u"] ss 0 "u" (Some "T") (d, d + 2)
              = inl [mkBucket d 480 1; mkBucket (d + 1) 30 1; mkBucket (d + 2) 0 0])
    by (vm_compute; reflexivity).
  split; [exact H|].
  exact (proj1 (aggregate_buckets [mkTracker "T" "u"] ss 0 "u" (Some "T") d (d + 2)
                  _ ltac:(unfold d; vm_compute; discriminate) H)).
Defined.

(** * Further properties of the cache layer and the controllers *)

(** ** Redis glob matching *)

Lemma string_app_assoc (a b c : string) : ((a ++ b) ++ c = a ++ (b ++ c))%string.
Proof. induction a as [|x a IH]; simpl; [reflexivity | now rewrite IH]. Qed.

Lemma string_app_nil_r (a : string) : (a ++ "")%string = a.
Proof. induction a as [|x a IH]; simpl; [reflexivity | now rewrite IH]. Qed.

Lemma glob_star_eq (p s : string) :
  glob (String "*" p) s
  = glob p s || match s with
               | EmptyString => false
               | String _ s' => glob (String "*" p) s'
               end.
Proof. destruct s; reflexivity. Qed.

Lemma glob_star_iff (p s : string) :
  glob (String "*" p) s = true <->
  exists a b, s = (a ++ b)%string /\ glob p b = true.
Proof.
  induction s as [|c s IH]; rewrite glob_star_eq.
  - rewrite orb_false_r. split.
    + intros H. exists EmptyString, EmptyString. split; [reflexivity | exact H].
    + intros [a [b [Hs Hb]]]. destruct a, b; try discriminate. exact Hb.
  - rewrite orb_true_iff, IH. split.
    + intros [H|[a [b [-> Hb]]]].
      * exists EmptyString, (String c s). split; [reflexivity | exact H].
      * exists (String c a), b. split; [reflexivity | exact Hb].
    + intros [a [b [Hs Hb]]]. destruct a as [|d a].
      * left. simpl in Hs. now rewrite Hs.
      * right. injection Hs as -> ->. exists a, b. split; [reflexivity | exact Hb].
Qed.

Lemma glob_lit (c : ascii) (p s : string) :
  Ascii.eqb c "*" = false -> Ascii.eqb c "?" = false ->
  glob (String c p) s
  = match s with
    | EmptyString => false
    | String d s' => Ascii.eqb c d && glob p s'
    end.
Proof.
  intros H1 H2.
  destruct c as [[] [] [] [] [] [] [] []];
    try discriminate H1; try discriminate H2; destruct s; reflexivity.
Qed.

Lemma glob_question (p s : string) :
  glob (String "?" p) s
  = match s with EmptyString => false | String _ s' => glob p s' end.
Proof. reflexivity. Qed.

(** Concatenated patterns match concatenated strings. *)
Lemma glob_app (p q s1 s2 : string) :
  glob p s1 = true -> glob q s2 = true -> glob (p ++ q) (s1 ++ s2) = true.
Proof.
  revert s1. induction p as [|c p IH]; intros s1 H1 H2.
  - destruct s1; [exact H2 | discriminate].
  - change (glob (String c (p ++ q)) (s1 ++ s2) = true).
    destruct (Ascii.eqb c "*") eqn:Hs; [apply Ascii.eqb_eq in Hs; subst c|].
    + apply glob_star_iff in H1 as [a [b [-> Hb]]].
      apply glob_star_iff. exists a, (b ++ s2)%string.
      split; [apply string_app_assoc | exact (IH b Hb H2)].
    + destruct (Ascii.eqb c "?") eqn:Hq; [apply Ascii.eqb_eq in Hq; subst c|].
      * rewrite glob_question in *. destruct s1 as [|d s1]; [discriminate|].
        exact (IH s1 H1 H2).
      * rewrite glob_lit in * by assumption. destruct s1 as [|d s1]; [discriminate|].
        apply andb_true_iff in H1 as [Hc H1].
        change ((c =? d)%char && glob (p ++ q) (s1 ++ s2) = true).
        rewrite Hc. exact (IH s1 H1 H2).
Qed.

(** A match of a concatenated pattern splits into matches of its parts. *)
Lemma glob_app_inv (p q s : string) :
  glob (p ++ q) s = true ->
  exists s1 s2, s = (s1 ++ s2)%string /\ glob p s1 = true /\ glob q s2 = true.
Proof.
  revert s. induction p as [|c p IH]; intros s H.
  - exists EmptyString, s. repeat split. exact H.
  - change (glob (String c (p ++ q)) s = true) in H.
    destruct (Ascii.eqb c "*") eqn:Hs; [apply Ascii.eqb_eq in Hs; subst c|].
    + apply glob_star_iff in H as [a [b [-> Hb]]].
      destruct (IH b Hb) as [b1 [b2 [-> [Hb1 Hb2]]]].
      exists (a ++ b1)%string, b2. split; [symmetry; apply string_app_assoc|].
      split; [|exact Hb2]. apply glob_star_iff. exists a, b1. now split.
    + destruct (Ascii.eqb c "?") eqn:Hq; [apply Ascii.eqb_eq in Hq; subst c|].
      * rewrite glob_question in H. destruct s as [|d s]; [discriminate|].
        destruct (IH s H) as [s1 [s2 [-> [H1 H2]]]].
        exists (String d s1), s2. repeat split; assumption.
      * rewrite glob_lit in H by assumption. destruct s as [|d s]; [discriminate|].
        apply andb_true_iff in H as [Hc H].
        destruct (IH s H) as [s1 [s2 [-> [H1 H2]]]].
        exists (String d s1), s2. split; [reflexivity|]. split; [|exact H2].
        rewrite glob_lit by assumption. now rewrite Hc, H1.
Qed.

Lemma glob_self (s : string) : glob_free s = true -> glob s s = true.
Proof.
  induction s as [|c s IH]; intros H; [reflexivity|].
  simpl in H. apply andb_true_iff in H as [H Hs].
  apply andb_true_iff in H as [H1 H2]. apply negb_true_iff in H1, H2.
  rewrite glob_lit by assumption. rewrite Ascii.eqb_refl. exact (IH Hs).
Qed.

Lemma glob_any (s : string) : glob "*" s = true.
Proof. apply glob_star_iff. exists s, EmptyString. split; [symmetry; apply string_app_nil_r | reflexivity]. Qed.

(** ** Store commands *)

Lemma redis_get_del (k : string) (ks : list string) (st : Store) :
  redis_get k (redis_del ks st)
  = if existsb (String.eqb k) ks then None else redis_get k st.
Proof.
  induction st as [|[k' e] st IH]; simpl.
  - destruct (existsb (String.eqb k) ks); reflexivity.
  - unfold redis_del in *. simpl.
    destruct (String.eqb_spec k k') as [<-|Hne].
    + destruct (existsb (String.eqb k) ks) eqn:E; simpl.
      * exact IH.
      * now rewrite String.eqb_refl.
    + destruct (existsb (String.eqb k') ks); simpl; [exact IH|].
      apply String.eqb_neq in Hne. now rewrite Hne.
Qed.

Lemma existsb_redis_keys (p k : string) (st : Store) :
  existsb (String.eqb k) (redis_keys p st)
  = glob p k && existsb (String.eqb k) (map fst st).
Proof.
  unfold redis_keys. induction (map fst st) as [|k' l IH]; simpl.
  - now rewrite andb_false_r.
  - destruct (glob p k') eqn:Hg; simpl; rewrite IH;
      destruct (String.eqb_spec k k') as [->|]; simpl;
      rewrite ?Hg; simpl; try reflexivity; try (now rewrite orb_true_r).
Qed.

Lemma redis_get_absent (k : string) (st : Store) :
  existsb (String.eqb k) (map fst st) = false -> redis_get k st = None.
Proof.
  induction st as [|[k' e] st IH]; simpl; [reflexivity|].
  intros H. apply orb_false_iff in H as [H1 H2]. rewrite H1. exact (IH H2).
Qed.

Lemma invalidateUserCache_get (u : string) (pat : jsstr) (st : Store) (k : string) :
  redis_get k (fst (fst (invalidateUserCache no_faults u pat st)))
  = if glob (render (js_or pat (Some (user_pattern u)))) k then None
    else redis_get k st.
Proof.
  unfold invalidateUserCache.
  set (p := render (js_or pat (Some (user_pattern u)))). simpl.
  destruct (Nat.ltb 0 (length (redis_keys p st))) eqn:Hl; simpl.
  - rewrite redis_get_del, existsb_redis_keys.
    destruct (glob p k); simpl; [|reflexivity].
    destruct (existsb (String.eqb k) (map fst st)) eqn:E; [reflexivity|].
    now apply redis_get_absent.
  - destruct (glob p k) eqn:Hg; [|reflexivity].
    apply redis_get_absent.
    destruct (existsb (String.eqb k) (map fst st)) eqn:E; [|reflexivity].
    assert (Hin : existsb (String.eqb k) (redis_keys p st) = true)
      by (now rewrite existsb_redis_keys, Hg, E).
    destruct (redis_keys p st); [discriminate | discriminate Hl].
Qed.

(** X2.  With a reachable store, [invalidateUserCache u] deletes exactly the
    entries whose key matches [cache:*:<u>*]; every other entry keeps its
    value and TTL. *)
Theorem invalidateUserCache_effect (u : string) (st : Store) (k : string) :
  redis_get k (fst (fst (invalidateUserCache no_faults u None st)))
  = if glob (user_pattern u) k then None else redis_get k st.
Proof. exact (invalidateUserCache_get u None st k). Qed.

(** Shape of the keys [generateCacheKey] builds. *)
Lemma generateCacheKey_shape (req : Req) :
  exists rest,
    generateCacheKey req
    = ("cache:" ++ render (js_or (route_path req) (Some (path req))) ++ ":"
       ++ render (js_or (param req "userId") (qparam req "userId")) ++ rest)%string.
Proof.
  unfold generateCacheKey.
  destruct (str_truthy (qparam req "period")), (str_truthy (qparam req "trackerId")),
    (str_truthy (qparam req "startDate") && str_truthy (qparam req "endDate"));
    rewrite ?string_app_assoc;
    first [ exists EmptyString; rewrite string_app_nil_r; reflexivity
          | eexists; reflexivity ].
Qed.

Lemma generateCacheKey_tracker_shape (req : Req) (t : string) :
  qparam req "trackerId" = Some t -> str_truthy (Some t) = true ->
  exists mid rest,
    generateCacheKey req
    = ("cache:" ++ render (js_or (route_path req) (Some (path req))) ++ ":"
       ++ render (js_or (param req "userId") (qparam req "userId")) ++ mid
       ++ ":tracker:" ++ t ++ rest)%string.
Proof.
  intros Ht Htr. unfold generateCacheKey. rewrite Ht, Htr.
  destruct (str_truthy (qparam req "period")),
    (str_truthy (qparam req "startDate") && str_truthy (qparam req "endDate"));
    rewrite ?string_app_assoc; simpl render.
  - exists (":" ++ render (qparam req "period"))%string.
    eexists. rewrite ?string_app_assoc. reflexivity.
  - exists (":" ++ render (qparam req "period"))%string, EmptyString.
    rewrite ?string_app_assoc, string_app_nil_r. reflexivity.
  - exists EmptyString. eexists. reflexivity.
  - exists EmptyString, EmptyString. rewrite string_app_nil_r. reflexivity.
Qed.

Lemma user_pattern_matches_key (req : Req) (u : string) :
  js_or (param req "userId") (qparam req "userId") = Some u ->
  glob_free u = true ->
  glob (user_pattern u) (generateCacheKey req) = true.
Proof.
  intros Hu Hf. destruct (generateCacheKey_shape req) as [rest ->].
  rewrite Hu. simpl render.
  change (user_pattern u) with ("cache:" ++ String "*" (":" ++ (u ++ "*")))%string.
  apply glob_app; [reflexivity|].
  apply glob_star_iff.
  eexists; eexists; split; [reflexivity|].
  change (":" ++ (u ++ "*"))%string with ((":" ++ u) ++ "*")%string.
  rewrite <- (string_app_assoc ":" u rest).
  apply glob_app; [|apply glob_any].
  apply (glob_app ":" u ":" u); [reflexivity | exact (glob_self u Hf)].
Qed.

(** X3.  For any request whose user id (path, else query) is [u], with no
    [*] or [?] in [u], [invalidateUserCache u] removes its cached response:
    the key [generateCacheKey] derives for it is no longer in the store. *)
Theorem invalidateUserCache_removes_user_key (req : Req) (u : string) (st : Store) :
  js_or (param req "userId") (qparam req "userId") = Some u ->
  glob_free u = true ->
  redis_get (generateCacheKey req) (fst (fst (invalidateUserCache no_faults u None st)))
  = None.
Proof.
  intros Hu Hf. rewrite (invalidateUserCache_get u None st).
  change (render (js_or None (Some (user_pattern u)))) with (user_pattern u).
  now rewrite (user_pattern_matches_key req u Hu Hf).
Qed.

Lemma invalidateUserCache_removes_user_key_witness :
  redis_get "cache:/users/:userId/daily-totals:u1:2025-09-04:2025-09-06"
    (fst (fst (invalidateUserCache no_faults "u1" None two_user_store))) = None.
Proof.
  exact (invalidateUserCache_removes_user_key
           (get_req "/users/:userId/daily-totals" "/users/u1/daily-totals"
              [("userId", "u1")]
              [("startDate", "2025-09-04"); ("endDate", "2025-09-06")])
           "u1" two_user_store eq_refl eq_refl).
Defined.

(** ** Tracker-scoped invalidation *)

(** X4.  [invalidateTrackerCache u t] can only delete keys that
    [invalidateUserCache u] would delete as well: every key matching
    [cache:*:<u>*tracker:<t>*] matches [cache:*:<u>*]. *)
Theorem tracker_pattern_within_user_pattern (u t k : string) :
  glob (tracker_pattern u t) k = true -> glob (user_pattern u) k = true.
Proof.
  assert (Et : tracker_pattern u t
               = ((("cache:*:" ++ u) ++ "*") ++ ("tracker:" ++ (t ++ "*")))%string)
    by (unfold tracker_pattern; rewrite !string_app_assoc; reflexivity).
  assert (Eu : user_pattern u = (("cache:*:" ++ u) ++ "*")%string)
    by (unfold user_pattern; rewrite string_app_assoc; reflexivity).
  rewrite Et, Eu. intros H.
  apply glob_app_inv in H as [s1 [s2 [-> [H1 _]]]].
  apply glob_app_inv in H1 as [a [b [-> [Ha _]]]].
  rewrite (string_app_assoc a b s2). apply glob_app; [exact Ha | apply glob_any].
Qed.

Lemma tracker_pattern_matches_key (req : Req) (u t : string) :
  js_or (param req "userId") (qparam req "userId") = Some u ->
  qparam req "trackerId" = Some t -> str_truthy (Some t) = true ->
  glob_free u = true -> glob_free t = true ->
  glob (tracker_pattern u t) (generateCacheKey req) = true.
Proof.
  intros Hu Ht Htr Hfu Hft.
  destruct (generateCacheKey_tracker_shape req t Ht Htr) as [mid [rest ->]].
  rewrite Hu. simpl render.
  change (tracker_pattern u t)
    with ("cache:" ++ String "*" (":" ++ (u ++ String "*" ("tracker:" ++ (t ++ "*")))))%string.
  apply glob_app; [reflexivity|].
  apply glob_star_iff. eexists; eexists; split; [reflexivity|].
  rewrite <- (string_app_assoc ":" u (String "*" _)), <- (string_app_assoc ":" u).
  apply glob_app; [apply glob_self; simpl; exact Hfu|].
  apply glob_star_iff.
  exists (mid ++ ":")%string, ("tracker:" ++ (t ++ rest))%string.
  split; [rewrite string_app_assoc; reflexivity|].
  apply (glob_app "tracker:" _ "tracker:"); [reflexivity|].
  apply glob_app; [exact (glob_self t Hft) | apply glob_any].
Qed.

(** X5.  For a request of user [u] with query [trackerId = t] (neither
    containing [*] or [?]), [invalidateTrackerCache u t] removes its cached
    response. *)
Theorem invalidateTrackerCache_removes_tracker_key (req : Req) (u t : string)
    (st : Store) :
  js_or (param req "userId") (qparam req "userId") = Some u ->
  qparam req "trackerId" = Some t -> str_truthy (Some t) = true ->
  glob_free u = true -> glob_free t = true ->
  redis_get (generateCacheKey req)
    (fst (fst (invalidateTrackerCache no_faults u t st))) = None.
Proof.
  intros Hu Ht Htr Hfu Hft. unfold invalidateTrackerCache.
  rewrite invalidateUserCache_get.
  change (render (js_or (Some (tracker_pattern u t)) (Some (user_pattern u))))
    with (tracker_pattern u t).
  now rewrite (tracker_pattern_matches_key req u t Hu Ht Htr Hfu Hft).
Qed.

Lemma invalidateTrackerCache_removes_tracker_key_witness :
  redis_get "cache:/users/:userId/daily-totals/:period:u1:week:tracker:T"
    (fst (fst (invalidateTrackerCache no_faults "u1" "T"
       [("cache:/users/:userId/daily-totals/:period:u1:week:tracker:T", (week_data, 300))])))
  = None.
Proof.
  exact (invalidateTrackerCache_removes_tracker_key
           (get_req "/users/:userId/daily-totals/:period" "/users/u1/daily-totals/week"
              [("userId", "u1"); ("period", "week")]
              [("period", "week"); ("trackerId", "T")])
           "u1" "T" _ eq_refl eq_refl eq_refl eq_refl eq_refl).
Defined.

(** ** Reads only write their own key; the cache round trip *)

Lemma redis_get_del_one (k k' : string) (st : Store) :
  k <> k' -> redis_get k (redis_del_one k' st) = redis_get k st.
Proof.
  intros Hne. induction st as [|[k'' e] st IH]; simpl; [reflexivity|].
  unfold redis_del_one in *. simpl.
  destruct (String.eqb_spec k'' k') as [->|]; simpl.
  - apply String.eqb_neq in Hne. rewrite Hne. exact IH.
  - destruct (String.eqb k k''); [reflexivity | exact IH].
Qed.

Lemma redis_get_setex_other (k k' : string) (ttl : Z) (v : jval) (st : Store) :
  k <> k' -> redis_get k (redis_setex k' ttl v st) = redis_get k st.
Proof.
  intros Hne. unfold redis_setex. simpl.
  apply String.eqb_neq in Hne as Hb. rewrite Hb.
  now apply redis_get_del_one.
Qed.

(** X14.  [cacheMiddleware] never changes a cache entry other than the one
    under the request's own key, whatever the request, handler and store
    faults. *)
Theorem cacheMiddleware_frame (h : Req -> Resp) (f : Faults) (st : Store)
    (req : Req) (k : string) :
  k <> generateCacheKey req ->
  redis_get k (out_store (cacheMiddleware h f st req)) = redis_get k st.
Proof.
  intros Hne. unfold cacheMiddleware.
  destruct (negb (String.eqb (method req) "GET")); [reflexivity|].
  destruct (get_fails f); [reflexivity|].
  destruct (redis_get (generateCacheKey req) st) as [[v t]|]; [reflexivity|].
  unfold cached_json.
  destruct (success_truthy (body (h req))); [destruct (setex_fails f)|]; simpl;
    try reflexivity.
  now apply redis_get_setex_other.
Qed.

Lemma cacheMiddleware_frame_witness :
  redis_get "cache:/users/:userId/daily-totals:u10:2025-09-04:2025-09-06"
    (out_store (cacheMiddleware (fun _ => mkResp 200 week_data) no_faults
                  two_user_store (period_req "u1" "week")))
  = Some (week_data, 300).
Proof.
  rewrite (cacheMiddleware_frame (fun _ => mkResp 200 week_data) no_faults
             two_user_store (period_req "u1" "week")
             "cache:/users/:userId/daily-totals:u10:2025-09-04:2025-09-06")
    by (vm_compute; discriminate).
  reflexivity.
Defined.

(** X6.  Cache round trip: after a GET miss whose response is successful,
    the same request is a hit that answers the same payload without running
    the handler, and leaves the store as the first request left it. *)
Theorem cache_round_trip (h : Req -> Resp) (st : Store) (req : Req) :
  method req = "GET" ->
  redis_get (generateCacheKey req) st = None ->
  success_truthy (body (h req)) = true ->
  let o1 := cacheMiddleware h no_faults st req in
  let o2 := cacheMiddleware h no_faults (out_store o1) req in
  out_resp o1 = h req
  /\ out_resp o2 = mkResp 200 (body (h req))
  /\ out_handler_ran o2 = false
  /\ out_store o2 = out_store o1.
Proof.
  intros Hm Hget Hs o1 o2. subst o1 o2.
  unfold cacheMiddleware. rewrite Hm. simpl.
  rewrite Hget. unfold cached_json. rewrite Hs. simpl.
  rewrite ?String.eqb_refl. simpl. repeat split.
Qed.

Lemma cache_round_trip_witness :
  out_resp (cacheMiddleware (fun _ => mkResp 200 week_data) no_faults
              (out_store (cacheMiddleware (fun _ => mkResp 200 week_data) no_faults []
                            (period_req "u1" "week")))
              (period_req "u1" "week"))
  = mkResp 200 week_data.
Proof.
  exact (proj1 (proj2 (cache_round_trip (fun _ => mkResp 200 week_data) []
                         (period_req "u1" "week") eq_refl eq_refl eq_refl))).
Defined.

(** ** Read controllers: validation precedes the service; status and flag *)

(** X7.  When a custom-range request lacks or mis-spells a date, or a period
    request names another period, the controller's answer does not depend
    on the tracker service: the service is not consulted. *)
Theorem read_validation_ignores_service (js_date : DateParser) (req : Req) :
  (range_invalid js_date req = true ->
   forall c1 c2, range_controller js_date c1 req = range_controller js_date c2 req)
  /\ (valid_period (param req "period") = false ->
      forall c1 c2, period_controller c1 req = period_controller c2 req).
Proof.
  split.
  - unfold range_invalid, range_controller. intros H c1 c2.
    destruct (str_truthy (qparam req "startDate")), (str_truthy (qparam req "endDate"));
      simpl in *; try reflexivity.
    destruct (js_date (render (qparam req "startDate"))),
      (js_date (render (qparam req "endDate"))); try discriminate; reflexivity.
  - intros H c1 c2. unfold period_controller. now rewrite H.
Qed.

Lemma read_validation_ignores_service_witness :
  range_controller demo_dates (fun _ _ _ _ => None) missing_end_req
  = range_controller demo_dates (getDailyTotalsForUser demo_service) missing_end_req.
Proof.
  exact (proj1 (read_validation_ignores_service demo_dates missing_end_req) eq_refl
           (fun _ _ _ _ => None) (getDailyTotalsForUser demo_service)).
Defined.

Lemma respond_result_status (r : option jval) :
  (status (respond_result r) = 200
   <-> opt_truthy (field "success" (body (respond_result r))) = true)
  /\ (status (respond_result r) = 200 \/ status (respond_result r) = 400
      \/ status (respond_result r) = 500).
Proof.
  unfold respond_result. destruct r as [res|].
  - destruct (opt_truthy (field "success" res)) eqn:E; simpl; rewrite ?E.
    + split; [tauto | now left].
    + split; [split; discriminate | now right; left].
  - simpl. split; [split; discriminate | now right; right].
Qed.

Lemma error_body_status (msg : string) :
  (status (mkResp 400 (error_body msg)) = 200
   <-> opt_truthy (field "success" (body (mkResp 400 (error_body msg)))) = true)
  /\ (status (mkResp 400 (error_body msg)) = 200
      \/ status (mkResp 400 (error_body msg)) = 400
      \/ status (mkResp 400 (error_body msg)) = 500).
Proof. simpl. split; [split; discriminate | now right; left]. Qed.

(** X8.  Every answer of a read route's controller has status 200 exactly
    when its payload's [success] flag is set, and otherwise status 400 or
    500. *)
Theorem read_status_matches_success (js_date : DateParser) (svc : TrackerService)
    (rp : string) (h : Req -> Resp) (req : Req) :
  read_route js_date svc rp = Some h ->
  (status (h req) = 200 <-> opt_truthy (field "success" (body (h req))) = true)
  /\ (status (h req) = 200 \/ status (h req) = 400 \/ status (h req) = 500).
Proof.
  unfold read_route. intros Hr.
  repeat match type of Hr with
  | context [String.eqb rp ?lit] =>
      let E := fresh "E" in destruct (String.eqb rp lit) eqn:E
  end; try discriminate Hr; injection Hr as <-;
  first
    [ unfold range_controller;
      destruct (negb (str_truthy (qparam req "startDate"))
                || negb (str_truthy (qparam req "endDate")));
      [ apply error_body_status
      | destruct (js_date (render (qparam req "startDate"))),
          (js_date (render (qparam req "endDate")));
        first [apply respond_result_status | apply error_body_status] ]
    | unfold period_controller;
      destruct (negb (valid_period (param req "period")));
      [apply error_body_status | apply respond_result_status]
    | apply respond_result_status ].
Qed.

Lemma read_status_matches_success_witness :
  status (period_controller (getDailyTotalsForPeriod demo_service)
            (period_req "u1" "week")) = 200.
Proof.
  apply (proj2 (proj1 (read_status_matches_success demo_dates demo_service
                         "/users/:userId/daily-totals/:period"
                         (period_controller (getDailyTotalsForPeriod demo_service))
                         (period_req "u1" "week") eq_refl))).
  reflexivity.
Defined.

(** ** Mutating controllers *)

(** X9.  The mutating controllers only log a rejected service call: when
    every service call rejects, a request with a tracker id (or, for
    [addTracker], with the required fields) gets no answer at all, and on
    the invalidating POST routes other than [/trackers] the cache is left
    untouched. *)
Theorem mutations_silent_on_rejection (parseInt : ParseInt) (svc : MutationService)
    (req : Req) (b : Body) :
  (forall nt, svc_addTracker svc nt = None) ->
  (forall i, svc_startTracker svc i = None) ->
  (forall i, svc_stopTracker svc i = None) ->
  (forall i, svc_archiveTracker svc i = None) ->
  (forall i, svc_unarchiveTracker svc i = None) ->
  (forall i, svc_deleteTracker svc i = None) ->
  (str_truthy (param req "id") = true ->
   startTracker svc req = [] /\ stopTracker svc req = []
   /\ archiveTracker svc req = [] /\ unarchiveTracker svc req = []
   /\ deleteTracker svc req = [])
  /\ (opt_jtruthy (body_field b "trackerName") = true ->
      opt_jtruthy (body_field b "targetHours") = true ->
      opt_jtruthy (body_field b "userId") = true ->
      addTracker parseInt svc req b = [])
  /\ (forall f st rs st' ops,
      str_truthy (param req "id") = true ->
      render (route_path req) <> "/trackers" ->
      serve_mutation parseInt svc f st req b = Some (rs, st', ops) ->
      method req = "POST" ->
      rs = [] /\ st' = st /\ ops = []).
Proof.
  intros Ha Hs Hp Har Hu Hd.
  assert (Hids : str_truthy (param req "id") = true ->
     startTracker svc req = [] /\ stopTracker svc req = []
     /\ archiveTracker svc req = [] /\ unarchiveTracker svc req = []
     /\ deleteTracker svc req = []).
  { intros Hid. unfold startTracker, stopTracker, archiveTracker, unarchiveTracker,
      deleteTracker, id_controller. cbv zeta. rewrite Hid, Hs, Hp, Har, Hu, Hd.
    simpl. repeat split. }
  split; [exact Hids | split].
  - intros H1 H2 H3. unfold addTracker. cbv zeta. rewrite H1, H2, H3, Ha.
    reflexivity.
  - intros f st rs st' ops Hid Hrp Hserve Hm.
    destruct (Hids Hid) as (E1 & E2 & E3 & E4 & _).
    unfold serve_mutation in Hserve. rewrite Hm in Hserve. simpl in Hserve.
    destruct (String.eqb_spec (render (route_path req)) "/trackers");
      [contradiction|].
    repeat match type of Hserve with
    | context [String.eqb ?x ?lit] =>
        let E := fresh "E" in destruct (String.eqb x lit) eqn:E
    end; try discriminate Hserve;
    first [rewrite E1 in Hserve | rewrite E2 in Hserve | rewrite E3 in Hserve
          | rewrite E4 in Hserve];
    simpl in Hserve; injection Hserve as <- <- <-; repeat split.
Qed.

Lemma mutations_silent_on_rejection_witness :
  stopTracker
    (mkMutationService (fun _ => None) (fun _ => None) (fun _ => None)
       (fun _ => None) (fun _ => None) (fun _ => None) (fun _ _ => None))
    (mkReq "POST" (Some "/trackers/:id/stop") "/trackers/t1/stop" [("id", "t1")] [])
  = [].
Proof.
  apply (proj1 (mutations_silent_on_rejection demo_parseInt
    (mkMutationService (fun _ => None) (fun _ => None) (fun _ => None)
       (fun _ => None) (fun _ => None) (fun _ => None) (fun _ _ => None))
    (mkReq "POST" (Some "/trackers/:id/stop") "/trackers/t1/stop" [("id", "t1")] [])
    [] (fun _ => eq_refl) (fun _ => eq_refl) (fun _ => eq_refl) (fun _ => eq_refl)
    (fun _ => eq_refl) (fun _ => eq_refl)) eq_refl).
Defined.

(** X10.  [DELETE /trackers/:id] has no invalidation middleware: whatever the
    service answers, the store is left as it was and no store command is
    sent. *)
Theorem delete_route_keeps_cache (parseInt : ParseInt) (svc : MutationService)
    (f : Faults) (st : Store) (req : Req) (b : Body) rs st' ops :
  method req = "DELETE" ->
  serve_mutation parseInt svc f st req b = Some (rs, st', ops) ->
  rs = deleteTracker svc req /\ st' = st /\ ops = [].
Proof.
  intros Hm Hs. unfold serve_mutation in Hs. rewrite Hm in Hs. simpl in Hs.
  destruct (String.eqb (render (route_path req)) "/trackers/:id"); [|discriminate].
  injection Hs as <- <- <-. repeat split.
Qed.

Lemma delete_route_keeps_cache_witness :
  let req := mkReq "DELETE" (Some "/trackers/:id") "/trackers/t1" [("id", "t1")] [] in
  deleteTracker demo_mutations req = [mkResp 200 (created_tracker "u1")]
  /\ serve_mutation demo_parseInt demo_mutations no_faults two_user_store req []
     = Some ([mkResp 200 (created_tracker "u1")], two_user_store, []).
Proof.
  cbv zeta.
  destruct (delete_route_keeps_cache demo_parseInt demo_mutations no_faults two_user_store
    (mkReq "DELETE" (Some "/trackers/:id") "/trackers/t1" [("id", "t1")] []) []
    [mkResp 200 (created_tracker "u1")] two_user_store [] eq_refl eq_refl)
    as [H _].
  split; [symmetry; exact H | reflexivity].
Defined.

(** X11.  [stopTracker] answers the missing-id error without returning: when
    the service then accepts the call, the controller calls [res.json] a
    second time with the service's result. *)
Theorem stopTracker_missing_id_answers_twice (svc : MutationService) (req : Req)
    (res : jval) :
  str_truthy (param req "id") = false ->
  svc_stopTracker svc (param req "id") = Some res ->
  opt_truthy (field "success" res) = true ->
  stopTracker svc req
  = [mkResp 400 (error_body "Tracker ID is required"); mkResp 200 res].
Proof.
  intros Hid Hs Hok. unfold stopTracker. cbv zeta. rewrite Hid, Hs. simpl.
  rewrite Hok. reflexivity.
Qed.

Lemma stopTracker_missing_id_answers_twice_witness :
  stopTracker demo_mutations
    (mkReq "POST" (Some "/trackers/:id/stop") "/trackers//stop" [("id", "")] [])
  = [mkResp 400 (error_body "Tracker ID is required");
     mkResp 200 (created_tracker "u1")].
Proof.
  apply stopTracker_missing_id_answers_twice; reflexivity.
Defined.

(** X12.  [editTracker] refuses, before any service call, a [targetHours]
    that is present but not a positive integer, and a body with none of the
    four updatable fields; the answer is then the same for every service. *)
Theorem editTracker_rejects_before_service (parseInt : ParseInt) (req : Req)
    (b : Body) :
  str_truthy (param req "id") = true ->
  (forall t, body_field b "targetHours" = Some t ->
   match parseInt t with Some n => n <= 0 | None => True end ->
   forall svc, editTracker parseInt svc req b
               = [mkResp 400 (error_body "Target hours must be a positive number")])
  /\ (body_field b "trackerName" = None -> body_field b "targetHours" = None ->
      body_field b "description" = None -> body_field b "workDays" = None ->
      forall svc, editTracker parseInt svc req b
          = [mkResp 400 (error_body "At least one field must be provided for update")]).
Proof.
  intros Hid. unfold editTracker. cbv zeta. rewrite Hid. simpl. split.
  - intros t Ht Hn svc. rewrite Ht.
    destruct (parseInt t) as [n|]; [|reflexivity].
    assert (E : (n <=? 0)%Z = true) by (apply Z.leb_le; exact Hn).
    rewrite E. reflexivity.
  - intros H1 H2 H3 H4 svc. rewrite H1, H2, H3, H4. reflexivity.
Qed.

Lemma editTracker_rejects_before_service_witness :
  editTracker demo_parseInt demo_mutations
    (mkReq "PUT" (Some "/trackers/:id") "/trackers/t1" [("id", "t1")] [])
    [("targetHours", JStr "0")]
  = [mkResp 400 (error_body "Target hours must be a positive number")].
Proof.
  apply (proj1 (editTracker_rejects_before_service demo_parseInt
    (mkReq "PUT" (Some "/trackers/:id") "/trackers/t1" [("id", "t1")] [])
    [("targetHours", JStr "0")] eq_refl) (JStr "0") eq_refl).
  simpl. lia.
Defined.

(** X13.  An accepted edit passes the service exactly the provided fields,
    each as the body has it, with [targetHours] parsed to a positive number
    when present; the answer is the service's result (200 or 400 by its
    [success] flag) or 500 when the service call rejects. *)
Theorem editTracker_update (parseInt : ParseInt) (req : Req) (b : Body) :
  str_truthy (param req "id") = true ->
  (forall t, body_field b "targetHours" = Some t ->
   exists n, parseInt t = Some n /\ 0 < n) ->
  (body_field b "trackerName" <> None \/ body_field b "targetHours" <> None
   \/ body_field b "description" <> None \/ body_field b "workDays" <> None) ->
  exists upd,
    up_trackerName upd = body_field b "trackerName"
    /\ up_description upd = body_field b "description"
    /\ up_workDays upd = body_field b "workDays"
    /\ (up_targetHours upd = None <-> body_field b "targetHours" = None)
    /\ (forall o, up_targetHours upd = Some o -> exists n, o = Some n /\ 0 < n)
    /\ forall svc,
         editTracker parseInt svc req b
         = match svc_editTracker svc (param req "id") upd with
           | Some res => if opt_truthy (field "success" res) then [mkResp 200 res]
                         else [mkResp 400 res]
           | None => [mkResp 500 (error_body "Internal server error")]
           end.
Proof.
  intros Hid Ht Hsome.
  exists (mkUpdate (body_field b "trackerName")
            (match body_field b "targetHours" with
             | Some t => Some (parseInt t) | None => None end)
            (body_field b "description") (body_field b "workDays")).
  simpl. split; [reflexivity | split; [reflexivity | split; [reflexivity | split]]].
  - destruct (body_field b "targetHours"); split; congruence.
  - split.
    + intros o Ho. destruct (body_field b "targetHours") as [t|] eqn:E;
        [|discriminate]. injection Ho as <-. destruct (Ht t eq_refl) as (n & Hn & Hpos).
      exists n. split; [exact Hn | exact Hpos].
    + intros svc. unfold editTracker. cbv zeta. rewrite Hid. simpl.
      assert (Hcheck : match body_field b "targetHours" with
                       | Some t => match parseInt t with Some n => (n <=? 0)%Z
                                   | None => true end
                       | None => false end = false).
      { destruct (body_field b "targetHours") as [t|]; [|reflexivity].
        destruct (Ht t eq_refl) as (n & -> & Hpos). apply Z.leb_gt. exact Hpos. }
      rewrite Hcheck.
      destruct (body_field b "trackerName"), (body_field b "targetHours"),
        (body_field b "description"), (body_field b "workDays");
        try reflexivity.
      exfalso. intuition congruence.
Qed.

Lemma editTracker_update_witness :
  editTracker demo_parseInt demo_mutations
    (mkReq "PUT" (Some "/trackers/:id") "/trackers/t1" [("id", "t1")] [])
    [("targetHours", JStr "8")]
  = [mkResp 200 (created_tracker "u1")].
Proof.
  destruct (editTracker_update demo_parseInt
    (mkReq "PUT" (Some "/trackers/:id") "/trackers/t1" [("id", "t1")] [])
    [("targetHours", JStr "8")] eq_refl) as (upd & _ & _ & _ & _ & _ & Hresp).
  - intros t Ht. injection Ht as <-. exists 8%Z. split; [reflexivity | lia].
  - right; left. discriminate.
  - rewrite Hresp. reflexivity.
Defined.

Lemma generateCacheKey_query_order_witness :
  generateCacheKey
    (get_req "/users/:userId/daily-totals" "/users/u1/daily-totals" [("userId", "u1")]
       [("startDate", "2025-09-04"); ("endDate", "2025-09-06")])
  = generateCacheKey
    (get_req "/users/:userId/daily-totals" "/users/u1/daily-totals" [("userId", "u1")]
       [("endDate", "2025-09-06"); ("startDate", "2025-09-04")]).
Proof.
  apply (generateCacheKey_query_order
    (get_req "/users/:userId/daily-totals" "/users/u1/daily-totals" [("userId", "u1")]
       [("startDate", "2025-09-04"); ("endDate", "2025-09-06")])
    [("endDate", "2025-09-06"); ("startDate", "2025-09-04")]).
  - simpl. apply NoDup_cons; [simpl; intros [H|[]]; discriminate H|].
    apply NoDup_cons; [intros []|constructor].
  - apply perm_swap.
Defined.

Lemma tracker_pattern_within_user_pattern_witness :
  glob (user_pattern "u1") "cache:/users/:userId/daily-totals/:period:u1:week:tracker:T"
  = true.
Proof.
  apply (tracker_pattern_within_user_pattern "u1" "T").
  vm_compute. reflexivity.
Defined.
